(** * CHDF5 shim: constant accessor functions over the HDF5 macros

    Shallow embedding of [Sources/CHDF5/shim.h].  The header defines
    twenty-one [static inline] functions, each of the form

      [static inline T hdf5_get_x(void) { return H5_MACRO; }]

    The macros themselves come from [<hdf5.h>], which is not part of the
    repository: their expansion is a parameter of the development.  As the
    header's own comment says, an HDF5 macro may contain runtime
    initialisation, so a macro denotes a computation over the process-global
    state of the library and not a bare number. *)

From Stdlib Require Import ZArith List String Ascii Bool Lia.
Import ListNotations.
Open Scope Z_scope.

(** ** C integer types and the conversion done by [return] *)

(** The three return types that occur in the header. *)
Inductive ctype : Type :=
| unsigned_int
| H5S_class_t
| hid_t.

(** Representation of an integer type on the build platform. *)
Record int_repr : Type := { is_signed : bool; width : positive }.

Definition modulus (r : int_repr) : Z := 2 ^ Z.pos (width r).

Definition min_value (r : int_repr) : Z :=
  if is_signed r then - 2 ^ (Z.pos (width r) - 1) else 0.

Definition max_value (r : int_repr) : Z := min_value r + modulus r - 1.

Definition in_range (r : int_repr) (v : Z) : Prop :=
  min_value r <= v <= max_value r.

Definition in_rangeb (r : int_repr) (v : Z) : bool :=
  (min_value r <=? v) && (v <=? max_value r).

(** Conversion of a value to an integer type: the value is reduced modulo
    [2 ^ width] into the range of the type.  For an unsigned target this is
    what the C standard prescribes; for a signed target it is the
    wrap-around that the usual compilers implement. *)
Definition convert (r : int_repr) (v : Z) : Z :=
  min_value r + (v - min_value r) mod modulus r.

(** The build platform fixes the width of [unsigned int] and the
    representation of the two types that [<hdf5.h>] declares. *)
Record platform : Type := {
  unsigned_int_width : positive;
  H5S_class_t_repr : int_repr;
  hid_t_repr : int_repr
}.

Definition repr (p : platform) (t : ctype) : int_repr :=
  match t with
  | unsigned_int => {| is_signed := false; width := unsigned_int_width p |}
  | H5S_class_t => H5S_class_t_repr p
  | hid_t => hid_t_repr p
  end.

(** ** The macros the header wraps *)

Inductive macro : Type :=
| H5F_ACC_RDONLY | H5F_ACC_RDWR | H5F_ACC_TRUNC | H5F_ACC_EXCL
| H5S_SCALAR | H5S_SIMPLE | H5S_NULL
| H5P_DEFAULT
| H5S_ALL
| H5T_NATIVE_INT8 | H5T_NATIVE_INT16 | H5T_NATIVE_INT32 | H5T_NATIVE_INT64
| H5T_NATIVE_UINT8 | H5T_NATIVE_UINT16 | H5T_NATIVE_UINT32 | H5T_NATIVE_UINT64
| H5T_NATIVE_FLOAT | H5T_NATIVE_DOUBLE | H5T_NATIVE_CHAR
| H5T_C_S1.

(** The identifier of each macro, as spelled in the header. *)
Definition macro_name (m : macro) : string :=
  match m with
  | H5F_ACC_RDONLY => "H5F_ACC_RDONLY"
  | H5F_ACC_RDWR => "H5F_ACC_RDWR"
  | H5F_ACC_TRUNC => "H5F_ACC_TRUNC"
  | H5F_ACC_EXCL => "H5F_ACC_EXCL"
  | H5S_SCALAR => "H5S_SCALAR"
  | H5S_SIMPLE => "H5S_SIMPLE"
  | H5S_NULL => "H5S_NULL"
  | H5P_DEFAULT => "H5P_DEFAULT"
  | H5S_ALL => "H5S_ALL"
  | H5T_NATIVE_INT8 => "H5T_NATIVE_INT8"
  | H5T_NATIVE_INT16 => "H5T_NATIVE_INT16"
  | H5T_NATIVE_INT32 => "H5T_NATIVE_INT32"
  | H5T_NATIVE_INT64 => "H5T_NATIVE_INT64"
  | H5T_NATIVE_UINT8 => "H5T_NATIVE_UINT8"
  | H5T_NATIVE_UINT16 => "H5T_NATIVE_UINT16"
  | H5T_NATIVE_UINT32 => "H5T_NATIVE_UINT32"
  | H5T_NATIVE_UINT64 => "H5T_NATIVE_UINT64"
  | H5T_NATIVE_FLOAT => "H5T_NATIVE_FLOAT"
  | H5T_NATIVE_DOUBLE => "H5T_NATIVE_DOUBLE"
  | H5T_NATIVE_CHAR => "H5T_NATIVE_CHAR"
  | H5T_C_S1 => "H5T_C_S1"
  end.

(** ** Computations over the process-global state *)

(** A C expression or function body evaluated in global state [G]: it
    yields a value and the state it leaves behind. *)
Definition M (G A : Type) : Type := G -> A * G.

Definition ret {G A : Type} (x : A) : M G A := fun g => (x, g).

Definition bind {G A B : Type} (c : M G A) (k : A -> M G B) : M G B :=
  fun g => let (x, g') := c g in k x g'.

Notation "x <- c ;; k" := (bind c (fun x => k))
  (at level 61, c at next level, right associativity).

Definition value_of {G A : Type} (r : A * G) : A := fst r.
Definition state_of {G A : Type} (r : A * G) : G := snd r.

(** ** The declarations of the header *)

(** One name per function the header defines, in the order of the file. *)
Inductive accessor : Type :=
| f_acc_rdonly | f_acc_rdwr | f_acc_trunc | f_acc_excl
| s_scalar | s_simple | s_null
| p_default
| s_all
| native_int8 | native_int16 | native_int32 | native_int64
| native_uint8 | native_uint16 | native_uint32 | native_uint64
| native_float | native_double | native_char
| c_s1.

(** The six groups of the header, named after the comment that opens each. *)
Inductive category : Type :=
| File_access_flags
| Dataspace_types
| Property_list_identifiers
| Dataspace_selection
| Native_type_identifiers
| String_type_helper.

Definition category_eqb (c d : category) : bool :=
  match c, d with
  | File_access_flags, File_access_flags => true
  | Dataspace_types, Dataspace_types => true
  | Property_list_identifiers, Property_list_identifiers => true
  | Dataspace_selection, Dataspace_selection => true
  | Native_type_identifiers, Native_type_identifiers => true
  | String_type_helper, String_type_helper => true
  | _, _ => false
  end.

(** What a function definition of the header says apart from its body:
    the name, the return type, the parameter list, the macro its body
    returns and the group it stands in. *)
Record fundecl : Type := {
  fn_name : string;
  fn_return : ctype;
  fn_params : list ctype;
  fn_macro : macro;
  fn_category : category
}.

Definition fd (n : string) (t : ctype) (m : macro) (c : category) : fundecl :=
  {| fn_name := n; fn_return := t; fn_params := []; fn_macro := m;
     fn_category := c |}.

Definition decl (a : accessor) : fundecl :=
  match a with
  | f_acc_rdonly => fd "hdf5_get_f_acc_rdonly" unsigned_int H5F_ACC_RDONLY File_access_flags
  | f_acc_rdwr => fd "hdf5_get_f_acc_rdwr" unsigned_int H5F_ACC_RDWR File_access_flags
  | f_acc_trunc => fd "hdf5_get_f_acc_trunc" unsigned_int H5F_ACC_TRUNC File_access_flags
  | f_acc_excl => fd "hdf5_get_f_acc_excl" unsigned_int H5F_ACC_EXCL File_access_flags
  | s_scalar => fd "hdf5_get_s_scalar" H5S_class_t H5S_SCALAR Dataspace_types
  | s_simple => fd "hdf5_get_s_simple" H5S_class_t H5S_SIMPLE Dataspace_types
  | s_null => fd "hdf5_get_s_null" H5S_class_t H5S_NULL Dataspace_types
  | p_default => fd "hdf5_get_p_default" hid_t H5P_DEFAULT Property_list_identifiers
  | s_all => fd "hdf5_get_s_all" hid_t H5S_ALL Dataspace_selection
  | native_int8 => fd "hdf5_get_native_int8" hid_t H5T_NATIVE_INT8 Native_type_identifiers
  | native_int16 => fd "hdf5_get_native_int16" hid_t H5T_NATIVE_INT16 Native_type_identifiers
  | native_int32 => fd "hdf5_get_native_int32" hid_t H5T_NATIVE_INT32 Native_type_identifiers
  | native_int64 => fd "hdf5_get_native_int64" hid_t H5T_NATIVE_INT64 Native_type_identifiers
  | native_uint8 => fd "hdf5_get_native_uint8" hid_t H5T_NATIVE_UINT8 Native_type_identifiers
  | native_uint16 => fd "hdf5_get_native_uint16" hid_t H5T_NATIVE_UINT16 Native_type_identifiers
  | native_uint32 => fd "hdf5_get_native_uint32" hid_t H5T_NATIVE_UINT32 Native_type_identifiers
  | native_uint64 => fd "hdf5_get_native_uint64" hid_t H5T_NATIVE_UINT64 Native_type_identifiers
  | native_float => fd "hdf5_get_native_float" hid_t H5T_NATIVE_FLOAT Native_type_identifiers
  | native_double => fd "hdf5_get_native_double" hid_t H5T_NATIVE_DOUBLE Native_type_identifiers
  | native_char => fd "hdf5_get_native_char" hid_t H5T_NATIVE_CHAR Native_type_identifiers
  | c_s1 => fd "hdf5_get_c_s1" hid_t H5T_C_S1 String_type_helper
  end.

(** Every function of the header, in the order of the file. *)
Definition all_accessors : list accessor :=
  [ f_acc_rdonly; f_acc_rdwr; f_acc_trunc; f_acc_excl;
    s_scalar; s_simple; s_null;
    p_default;
    s_all;
    native_int8; native_int16; native_int32; native_int64;
    native_uint8; native_uint16; native_uint32; native_uint64;
    native_float; native_double; native_char;
    c_s1 ].

Definition shim_h : list fundecl := map decl all_accessors.

Definition in_category (c : category) : list accessor :=
  filter (fun a => category_eqb (fn_category (decl a)) c) all_accessors.

(** ** The accessor functions *)

Section Shim.

(** Process-global state, build platform and the expansion of each macro
    of [<hdf5.h>] as a computation over that state. *)
Variable G : Type.
Variable P : platform.
Variable hdf5_h : macro -> M G Z.

(** [return e;] in a function whose declared return type is [t]:
    evaluate [e], then convert its value to [t]. *)
Definition creturn (t : ctype) (e : M G Z) : M G Z :=
  v <- e ;; ret (convert (repr P t) v).

(* File access flags *)
Definition hdf5_get_f_acc_rdonly : M G Z := creturn unsigned_int (hdf5_h H5F_ACC_RDONLY).
Definition hdf5_get_f_acc_rdwr : M G Z := creturn unsigned_int (hdf5_h H5F_ACC_RDWR).
Definition hdf5_get_f_acc_trunc : M G Z := creturn unsigned_int (hdf5_h H5F_ACC_TRUNC).
Definition hdf5_get_f_acc_excl : M G Z := creturn unsigned_int (hdf5_h H5F_ACC_EXCL).

(* Dataspace types *)
Definition hdf5_get_s_scalar : M G Z := creturn H5S_class_t (hdf5_h H5S_SCALAR).
Definition hdf5_get_s_simple : M G Z := creturn H5S_class_t (hdf5_h H5S_SIMPLE).
Definition hdf5_get_s_null : M G Z := creturn H5S_class_t (hdf5_h H5S_NULL).

(* Property list identifiers *)
Definition hdf5_get_p_default : M G Z := creturn hid_t (hdf5_h H5P_DEFAULT).

(* Dataspace selection *)
Definition hdf5_get_s_all : M G Z := creturn hid_t (hdf5_h H5S_ALL).

(* Native type identifiers *)
Definition hdf5_get_native_int8 : M G Z := creturn hid_t (hdf5_h H5T_NATIVE_INT8).
Definition hdf5_get_native_int16 : M G Z := creturn hid_t (hdf5_h H5T_NATIVE_INT16).
Definition hdf5_get_native_int32 : M G Z := creturn hid_t (hdf5_h H5T_NATIVE_INT32).
Definition hdf5_get_native_int64 : M G Z := creturn hid_t (hdf5_h H5T_NATIVE_INT64).
Definition hdf5_get_native_uint8 : M G Z := creturn hid_t (hdf5_h H5T_NATIVE_UINT8).
Definition hdf5_get_native_uint16 : M G Z := creturn hid_t (hdf5_h H5T_NATIVE_UINT16).
Definition hdf5_get_native_uint32 : M G Z := creturn hid_t (hdf5_h H5T_NATIVE_UINT32).
Definition hdf5_get_native_uint64 : M G Z := creturn hid_t (hdf5_h H5T_NATIVE_UINT64).
Definition hdf5_get_native_float : M G Z := creturn hid_t (hdf5_h H5T_NATIVE_FLOAT).
Definition hdf5_get_native_double : M G Z := creturn hid_t (hdf5_h H5T_NATIVE_DOUBLE).
Definition hdf5_get_native_char : M G Z := creturn hid_t (hdf5_h H5T_NATIVE_CHAR).

(* String type helper *)
Definition hdf5_get_c_s1 : M G Z := creturn hid_t (hdf5_h H5T_C_S1).

(** Calling a function of the header. *)
Definition call (a : accessor) : M G Z :=
  match a with
  | f_acc_rdonly => hdf5_get_f_acc_rdonly
  | f_acc_rdwr => hdf5_get_f_acc_rdwr
  | f_acc_trunc => hdf5_get_f_acc_trunc
  | f_acc_excl => hdf5_get_f_acc_excl
  | s_scalar => hdf5_get_s_scalar
  | s_simple => hdf5_get_s_simple
  | s_null => hdf5_get_s_null
  | p_default => hdf5_get_p_default
  | s_all => hdf5_get_s_all
  | native_int8 => hdf5_get_native_int8
  | native_int16 => hdf5_get_native_int16
  | native_int32 => hdf5_get_native_int32
  | native_int64 => hdf5_get_native_int64
  | native_uint8 => hdf5_get_native_uint8
  | native_uint16 => hdf5_get_native_uint16
  | native_uint32 => hdf5_get_native_uint32
  | native_uint64 => hdf5_get_native_uint64
  | native_float => hdf5_get_native_float
  | native_double => hdf5_get_native_double
  | native_char => hdf5_get_native_char
  | c_s1 => hdf5_get_c_s1
  end.

End Shim.

Arguments creturn {G} P t e.
Arguments call {G} P hdf5_h a.

(** ** Types of the wrapped constants *)

(** Modelled from the spec: the native C type of each constant of
    [<hdf5.h>], which the repository does not contain.  The spec's table of
    categories gives it: the file-access flags are unsigned integer
    bitmasks, the dataspace classes are tags of the enumerated type, and
    every other constant is an identifier handle. *)
Definition native_type (m : macro) : ctype :=
  match m with
  | H5F_ACC_RDONLY | H5F_ACC_RDWR | H5F_ACC_TRUNC | H5F_ACC_EXCL => unsigned_int
  | H5S_SCALAR | H5S_SIMPLE | H5S_NULL => H5S_class_t
  | _ => hid_t
  end.

(** ** Names *)

Definition lower_ascii (c : ascii) : ascii :=
  let n := nat_of_ascii c in
  if ((65 <=? n) && (n <=? 90))%nat then ascii_of_nat (n + 32) else c.

Fixpoint lower (s : string) : string :=
  match s with
  | EmptyString => EmptyString
  | String c r => String (lower_ascii c) (lower r)
  end.

(** The tag with which the names of each group of the header go on after
    [hdf5_get_]. *)
Definition category_tag (c : category) : string :=
  match c with
  | File_access_flags => "f_acc"
  | Dataspace_types => "s"
  | Property_list_identifiers => "p"
  | Dataspace_selection => "s"
  | Native_type_identifiers => "native"
  | String_type_helper => "c"
  end.

(** The naming pattern as the spec words it: [get_], a category, an
    underscore, a constant. *)
Definition follows_get_convention (name : string) : Prop :=
  exists cat const : string, name = ("get_" ++ cat ++ "_" ++ const)%string.

(** ** An instance of the parameters

    A build platform with a 32-bit [unsigned int], a 32-bit signed
    enumerated type and a 64-bit signed [hid_t], and a library in the manner
    of HDF5's public headers: the flags, class tags and the two zero handles
    are literals, while a datatype macro first makes sure the library is
    initialised and then reads the global that initialisation fills in.  It
    serves to run the accessors on concrete inputs. *)

Module Hdf5Lib.

Definition lp64 : platform :=
  {| unsigned_int_width := 32;
     H5S_class_t_repr := {| is_signed := true; width := 32 |};
     hid_t_repr := {| is_signed := true; width := 64 |} |}.

(** Global state of the library: whether it has been initialised, and
    the identifier globals behind the datatype macros. *)
Record lib : Type := {
  H5_libinit_g : bool;
  H5T_g : macro -> Z
}.

Definition H5I_INVALID_HID : Z := -1.

Definition uninitialised : lib :=
  {| H5_libinit_g := false; H5T_g := fun _ => H5I_INVALID_HID |}.

(** A library whose initialisation was started and failed: the flag is
    set, and no datatype has been registered. *)
Definition failed_init : lib :=
  {| H5_libinit_g := true; H5T_g := fun _ => H5I_INVALID_HID |}.

(** The identifier that initialisation registers for a datatype. *)
Definition registered_id (m : macro) : Z :=
  3 * 2 ^ 56 +
  match m with
  | H5T_NATIVE_CHAR => 1
  | H5T_NATIVE_INT8 => 2 | H5T_NATIVE_UINT8 => 3
  | H5T_NATIVE_INT16 => 4 | H5T_NATIVE_UINT16 => 5
  | H5T_NATIVE_INT32 => 6 | H5T_NATIVE_UINT32 => 7
  | H5T_NATIVE_INT64 => 8 | H5T_NATIVE_UINT64 => 9
  | H5T_NATIVE_FLOAT => 10 | H5T_NATIVE_DOUBLE => 11
  | H5T_C_S1 => 12
  | _ => 0
  end.

(** Initialise the library unless that has been done; always succeeds. *)
Definition H5open : M lib Z :=
  fun g =>
    if H5_libinit_g g then (0, g)
    else (0, {| H5_libinit_g := true; H5T_g := registered_id |}).

Definition global (m : macro) : M lib Z := fun g => (H5T_g g m, g).

Definition expansion (m : macro) : M lib Z :=
  match m with
  | H5F_ACC_RDONLY => ret 0
  | H5F_ACC_RDWR => ret 1
  | H5F_ACC_TRUNC => ret 2
  | H5F_ACC_EXCL => ret 4
  | H5S_SCALAR => ret 0
  | H5S_SIMPLE => ret 1
  | H5S_NULL => ret 2
  | H5P_DEFAULT => ret 0
  | H5S_ALL => ret 0
  | _ => _ <- H5open ;; global m
  end.

End Hdf5Lib.

(** ** The include guard

    The whole header stands between [#ifndef CHDF5_SHIM_H],
    [#define CHDF5_SHIM_H] and [#endif].  The preprocessor is modelled by
    the list of macro names defined so far; what the header contributes to
    a translation unit is the list of function definitions it emits. *)

Definition CHDF5_SHIM_H : string := "CHDF5_SHIM_H".

Definition defined (name : string) (defs : list string) : bool :=
  existsb (String.eqb name) defs.

Section IncludeGuard.

(** What [#include <hdf5.h>] does to the set of defined names. *)
Variable hdf5_defines : list string -> list string.

(** One [#include] of the header. *)
Definition include_shim_h (defs : list string) : list fundecl * list string :=
  if defined CHDF5_SHIM_H defs then ([], defs)
  else (shim_h, hdf5_defines (CHDF5_SHIM_H :: defs)).

(** [n] inclusions in a row. *)
Fixpoint include_times (n : nat) (defs : list string)
  : list fundecl * list string :=
  match n with
  | O => ([], defs)
  | S k =>
      let (fs, defs') := include_shim_h defs in
      let (fs', defs'') := include_times k defs' in
      (fs ++ fs', defs'')
  end.

End IncludeGuard.

(** ** Sequences of calls *)

Section Sequences.

Variable G : Type.
Variable P : platform.
Variable hdf5_h : macro -> M G Z.

(** Calling the listed accessors one after the other. *)
Fixpoint calls (l : list accessor) : M G (list Z) :=
  match l with
  | [] => ret []
  | a :: rest => v <- call P hdf5_h a ;; vs <- calls rest ;; ret (v :: vs)
  end.

(** Evaluating, in the same order, the macros those accessors wrap. *)
Fixpoint macros (l : list accessor) : M G (list Z) :=
  match l with
  | [] => ret []
  | a :: rest =>
      v <- hdf5_h (fn_macro (decl a)) ;; vs <- macros rest ;; ret (v :: vs)
  end.

(** The values of the macros, each converted to the return type of its
    accessor. *)
Fixpoint returned (l : list accessor) (vs : list Z) : list Z :=
  match l, vs with
  | a :: rest, v :: vs' =>
      convert (repr P (fn_return (decl a))) v :: returned rest vs'
  | _, _ => []
  end.

End Sequences.

Arguments calls {G} P hdf5_h l.
Arguments macros {G} hdf5_h l.

(** ** Properties claimed of the accessors *)

(** An accessor is side-effect-free when a call leaves the global state
    as it found it, whatever that state is. *)
Definition side_effect_free {G : Type} (P : platform) (h : macro -> M G Z)
    (a : accessor) : Prop :=
  forall g, state_of (call P h a g) = g.

(** An accessor never returns the value [e], whatever the state. *)
Definition never_returns {G : Type} (P : platform) (h : macro -> M G Z)
    (a : accessor) (e : Z) : Prop :=
  forall g, value_of (call P h a g) <> e.

(** An accessor touches no shared mutable state when a call neither
    writes the global state nor returns a value that depends on it. *)
Definition touches_no_shared_state {G : Type} (P : platform)
    (h : macro -> M G Z) (a : accessor) : Prop :=
  forall g,
    state_of (call P h a g) = g /\
    forall g', value_of (call P h a g') = value_of (call P h a g).

(** What the header's comment says of the macros of [<hdf5.h>]: a macro is
    either a literal, or it contains runtime initialisation, that is, it
    first initialises the library, which changes nothing when it has been
    done before, and then yields a value read from the initialised
    library. *)
Definition initialise_once {G : Type} (h : macro -> M G Z) (init : G -> G)
  : Prop :=
  (forall g, init (init g) = init g) /\
  forall m,
    (exists c : Z, forall g, h m g = (c, g)) \/
    (exists read : G -> Z, forall g, h m g = (read (init g), init g)).

(** ** Conversion lemmas *)

Lemma modulus_pos (r : int_repr) : 0 < modulus r.
Proof. unfold modulus. apply Z.pow_pos_nonneg; lia. Qed.

Lemma convert_in_range (r : int_repr) (v : Z) : in_range r (convert r v).
Proof.
  unfold in_range, convert, max_value.
  pose proof (Z.mod_pos_bound (v - min_value r) (modulus r) (modulus_pos r)).
  lia.
Qed.

Lemma convert_id (r : int_repr) (v : Z) : in_range r v -> convert r v = v.
Proof.
  unfold in_range, convert, max_value. intros Hv.
  rewrite Z.mod_small by lia. lia.
Qed.

Lemma in_rangeb_spec (r : int_repr) (v : Z) :
  in_rangeb r v = true <-> in_range r v.
Proof.
  unfold in_rangeb, in_range.
  rewrite andb_true_iff, !Z.leb_le. tauto.
Qed.

(** ** The body of every accessor *)

Section Bodies.

Context {G : Type} (P : platform) (h : macro -> M G Z).

Lemma creturn_eq (t : ctype) (e : M G Z) (g : G) :
  creturn P t e g = (convert (repr P t) (value_of (e g)), state_of (e g)).
Proof.
  unfold creturn, bind, ret, value_of, state_of.
  destruct (e g) as [v g']. reflexivity.
Qed.

Lemma creturn_value (t : ctype) (e : M G Z) (g : G) :
  value_of (creturn P t e g) = convert (repr P t) (value_of (e g)).
Proof. rewrite creturn_eq. reflexivity. Qed.

Lemma creturn_state (t : ctype) (e : M G Z) (g : G) :
  state_of (creturn P t e g) = state_of (e g).
Proof. rewrite creturn_eq. reflexivity. Qed.

(** The table of declarations agrees with the functions: the body of the
    function named [a] returns the macro the table lists for it, at the
    return type the table lists for it. *)
Lemma call_decl (a : accessor) :
  call P h a = creturn P (fn_return (decl a)) (h (fn_macro (decl a))).
Proof. destruct a; reflexivity. Qed.

Lemma call_value (a : accessor) (g : G) :
  value_of (call P h a g) =
  convert (repr P (fn_return (decl a))) (value_of (h (fn_macro (decl a)) g)).
Proof. rewrite call_decl. apply creturn_value. Qed.

Lemma call_state (a : accessor) (g : G) :
  state_of (call P h a g) = state_of (h (fn_macro (decl a)) g).
Proof. rewrite call_decl. apply creturn_state. Qed.

End Bodies.

Lemma return_is_native (a : accessor) :
  fn_return (decl a) = native_type (fn_macro (decl a)).
Proof. destruct a; reflexivity. Qed.

Lemma all_accessors_complete (a : accessor) : In a all_accessors.
Proof. destruct a; simpl; tauto. Qed.

Lemma all_accessors_NoDup : NoDup all_accessors.
Proof.
  unfold all_accessors.
  repeat (constructor; [simpl; intuition discriminate|]).
  constructor.
Qed.

(** ** The claims *)

(** C1. Calling an accessor returns exactly the value of its one wrapped
    constant.  For every accessor and every state of the process: when the
    value the macro yields there is a value of the constant's native type,
    the call returns that very value, with no bit changed by the
    conversion to the declared return type. *)
Theorem accessor_returns_constant {G : Type} (P : platform)
    (h : macro -> M G Z) (a : accessor) (g : G) :
  in_range (repr P (native_type (fn_macro (decl a))))
           (value_of (h (fn_macro (decl a)) g)) ->
  value_of (call P h a g) = value_of (h (fn_macro (decl a)) g).
Proof.
  intros Hv. rewrite call_value, return_is_native.
  apply convert_id, Hv.
Qed.

Lemma accessor_returns_constant_witness :
  in_range (repr Hdf5Lib.lp64 (native_type (fn_macro (decl native_double))))
           (value_of (Hdf5Lib.expansion (fn_macro (decl native_double))
                        Hdf5Lib.uninitialised)) /\
  value_of (call Hdf5Lib.lp64 Hdf5Lib.expansion native_double
              Hdf5Lib.uninitialised) = 3 * 2 ^ 56 + 11.
Proof.
  assert (Hr : in_range
                 (repr Hdf5Lib.lp64 (native_type (fn_macro (decl native_double))))
                 (value_of (Hdf5Lib.expansion (fn_macro (decl native_double))
                              Hdf5Lib.uninitialised))).
  { apply in_rangeb_spec. vm_compute. reflexivity. }
  split; [exact Hr|].
  rewrite (accessor_returns_constant Hdf5Lib.lp64 Hdf5Lib.expansion
             native_double Hdf5Lib.uninitialised Hr).
  reflexivity.
Defined.

(** C2, as stated, fails: an accessor whose macro contains runtime
    initialisation changes the global state.  In the library instance, the
    first call of [hdf5_get_native_int8] initialises the library. *)
Lemma native_int8_not_side_effect_free :
  ~ side_effect_free Hdf5Lib.lp64 Hdf5Lib.expansion native_int8.
Proof.
  intros Hfree. specialize (Hfree Hdf5Lib.uninitialised).
  apply (f_equal Hdf5Lib.H5_libinit_g) in Hfree.
  vm_compute in Hfree. discriminate Hfree.
Qed.

(** C2, amended. An accessor has no side effect of its own: the global
    state after a call is exactly the state that evaluating the wrapped
    macro once leaves behind.  So an accessor whose macro leaves the state
    unchanged leaves it unchanged too. *)
Theorem accessor_effect_is_macro_effect {G : Type} (P : platform)
    (h : macro -> M G Z) (a : accessor) (g : G) :
  state_of (call P h a g) = state_of (h (fn_macro (decl a)) g) /\
  (state_of (h (fn_macro (decl a)) g) = g -> state_of (call P h a g) = g).
Proof.
  rewrite call_state. split; [reflexivity | intros Hg; exact Hg].
Qed.

Lemma accessor_effect_is_macro_effect_witness :
  state_of (Hdf5Lib.expansion (fn_macro (decl f_acc_rdwr))
              Hdf5Lib.uninitialised) = Hdf5Lib.uninitialised /\
  state_of (call Hdf5Lib.lp64 Hdf5Lib.expansion f_acc_rdwr
              Hdf5Lib.uninitialised) = Hdf5Lib.uninitialised.
Proof.
  split; [reflexivity|].
  apply (accessor_effect_is_macro_effect Hdf5Lib.lp64 Hdf5Lib.expansion
           f_acc_rdwr Hdf5Lib.uninitialised).
  reflexivity.
Defined.

(** C3, as stated, fails: an accessor can return an error value.  In the
    library instance, when initialisation has failed, the datatype globals
    hold the invalid handle and [hdf5_get_native_uint8] returns it. *)
Lemma native_uint8_returns_invalid_handle :
  ~ never_returns Hdf5Lib.lp64 Hdf5Lib.expansion native_uint8
      Hdf5Lib.H5I_INVALID_HID.
Proof.
  intros Hnever. apply (Hnever Hdf5Lib.failed_init). vm_compute. reflexivity.
Qed.

(** C3, amended. An accessor has no failure of its own.  It takes no
    argument; in every state a call returns, with the state its macro left
    and a value of the declared return type; and that value is the one its
    macro yields, so the call returns an error value exactly when the
    wrapped macro yields that error value. *)
Theorem accessor_adds_no_failure {G : Type} (P : platform)
    (h : macro -> M G Z) (a : accessor) (g : G) :
  fn_params (decl a) = [] /\
  call P h a g =
    (convert (repr P (fn_return (decl a))) (value_of (h (fn_macro (decl a)) g)),
     state_of (h (fn_macro (decl a)) g)) /\
  in_range (repr P (fn_return (decl a))) (value_of (call P h a g)) /\
  (in_range (repr P (native_type (fn_macro (decl a))))
            (value_of (h (fn_macro (decl a)) g)) ->
   forall e : Z,
     value_of (call P h a g) = e <-> value_of (h (fn_macro (decl a)) g) = e).
Proof.
  split; [destruct a; reflexivity|].
  split; [rewrite call_decl; apply creturn_eq|].
  split; [rewrite call_value; apply convert_in_range|].
  intros Hv e. rewrite call_value, return_is_native, (convert_id _ _ Hv).
  tauto.
Qed.

Lemma accessor_adds_no_failure_witness :
  in_range (repr Hdf5Lib.lp64 (native_type (fn_macro (decl native_int64))))
           (value_of (Hdf5Lib.expansion (fn_macro (decl native_int64))
                        Hdf5Lib.failed_init)) /\
  (value_of (call Hdf5Lib.lp64 Hdf5Lib.expansion native_int64
               Hdf5Lib.failed_init) = Hdf5Lib.H5I_INVALID_HID <->
   value_of (Hdf5Lib.expansion (fn_macro (decl native_int64))
               Hdf5Lib.failed_init) = Hdf5Lib.H5I_INVALID_HID).
Proof.
  assert (Hr : in_range
                 (repr Hdf5Lib.lp64 (native_type (fn_macro (decl native_int64))))
                 (value_of (Hdf5Lib.expansion (fn_macro (decl native_int64))
                              Hdf5Lib.failed_init))).
  { apply in_rangeb_spec. vm_compute. reflexivity. }
  split; [exact Hr|].
  exact (proj2 (proj2 (proj2
           (accessor_adds_no_failure Hdf5Lib.lp64 Hdf5Lib.expansion
              native_int64 Hdf5Lib.failed_init))) Hr Hdf5Lib.H5I_INVALID_HID).
Defined.

(** Under [initialise_once], a call leaves the state as it was or
    initialised, and calls made in an initialised state keep it. *)
Lemma calls_cons_state {G : Type} (P : platform) (h : macro -> M G Z)
    (b : accessor) (rest : list accessor) (g : G) :
  state_of (calls P h (b :: rest) g) =
  state_of (calls P h rest (state_of (call P h b g))).
Proof.
  simpl. unfold bind, ret, state_of.
  destruct (call P h b g) as [v g1]. simpl.
  destruct (calls P h rest g1) as [vs g2]. reflexivity.
Qed.

Lemma call_state_initialise_once {G : Type} (P : platform)
    (h : macro -> M G Z) (init : G -> G) (b : accessor) (g : G) :
  initialise_once h init ->
  state_of (call P h b g) = g \/ state_of (call P h b g) = init g.
Proof.
  intros [_ Hm]. rewrite call_state.
  destruct (Hm (fn_macro (decl b))) as [[c Hc] | [read Hr]].
  - left. rewrite Hc. reflexivity.
  - right. rewrite Hr. reflexivity.
Qed.

Lemma calls_keep_initialised {G : Type} (P : platform) (h : macro -> M G Z)
    (init : G -> G) (l : list accessor) :
  initialise_once h init ->
  forall g, init g = g -> state_of (calls P h l g) = g.
Proof.
  intros Hio. induction l as [|b rest IH]; intros g Hg; [reflexivity|].
  rewrite calls_cons_state.
  destruct (call_state_initialise_once P h init b g Hio) as [Hs | Hs];
    rewrite Hs; [|rewrite Hg]; apply IH; exact Hg.
Qed.

(** C4. An accessor is idempotent within a process.  For macros as the
    header describes them (a literal, or initialise the library once and
    then read it), a call of an accessor and a later call of the same
    accessor, with any calls of any accessors in between, return identical
    values, from whatever state the first call starts. *)
Theorem accessor_calls_agree {G : Type} (P : platform) (h : macro -> M G Z)
    (init : G -> G) (a : accessor) (between : list accessor) (g : G) :
  initialise_once h init ->
  value_of (call P h a
              (state_of (calls P h between (state_of (call P h a g))))) =
  value_of (call P h a g).
Proof.
  intros Hio. pose proof Hio as [Hidem Hm].
  rewrite !call_value. f_equal.
  destruct (Hm (fn_macro (decl a))) as [[c Hc] | [read Hr]].
  - rewrite !Hc. reflexivity.
  - rewrite call_state, (Hr g). unfold state_of at 2. simpl.
    rewrite (calls_keep_initialised P h init between Hio (init g) (Hidem g)).
    rewrite !Hr. unfold value_of. simpl. rewrite Hidem. reflexivity.
Qed.

Lemma accessor_calls_agree_witness :
  let init := fun g => state_of (Hdf5Lib.H5open g) in
  initialise_once Hdf5Lib.expansion init /\
  value_of (call Hdf5Lib.lp64 Hdf5Lib.expansion native_double
              (state_of (calls Hdf5Lib.lp64 Hdf5Lib.expansion
                           [f_acc_rdwr; native_int8]
                           (state_of (call Hdf5Lib.lp64 Hdf5Lib.expansion
                                        native_double
                                        Hdf5Lib.uninitialised))))) =
  value_of (call Hdf5Lib.lp64 Hdf5Lib.expansion native_double
              Hdf5Lib.uninitialised).
Proof.
  intros init.
  assert (Hio : initialise_once Hdf5Lib.expansion init).
  { split.
    - intros [flag ids]. destruct flag; reflexivity.
    - intros m.
      destruct m;
        first [ left; eexists; intros g; reflexivity
              | right; eexists (fun g => Hdf5Lib.H5T_g g _);
                intros [flag ids]; destruct flag; reflexivity ]. }
  split; [exact Hio|].
  exact (accessor_calls_agree Hdf5Lib.lp64 Hdf5Lib.expansion init
           native_double [f_acc_rdwr; native_int8] Hdf5Lib.uninitialised Hio).
Defined.

(** C5. The declared return type of every accessor is the native type of
    the constant it wraps: [unsigned int] for the file-access flags, the
    enumerated dataspace-class type for the dataspace classes, and the
    identifier-handle type for the property-list, selection, native numeric
    and string type accessors.  Returning therefore neither truncates nor
    widens: a value of the native type is returned unchanged. *)
Theorem return_type_matches_constant (a : accessor) :
  fn_return (decl a) = native_type (fn_macro (decl a)) /\
  fn_return (decl a) =
    match fn_category (decl a) with
    | File_access_flags => unsigned_int
    | Dataspace_types => H5S_class_t
    | Property_list_identifiers | Dataspace_selection
    | Native_type_identifiers | String_type_helper => hid_t
    end /\
  forall (P : platform) (v : Z),
    in_range (repr P (native_type (fn_macro (decl a)))) v ->
    convert (repr P (fn_return (decl a))) v = v.
Proof.
  split; [apply return_is_native|].
  split; [destruct a; reflexivity|].
  intros P v Hv. rewrite return_is_native. apply convert_id, Hv.
Qed.

Lemma return_type_matches_constant_witness :
  in_range (repr Hdf5Lib.lp64 (native_type (fn_macro (decl f_acc_excl)))) 4 /\
  convert (repr Hdf5Lib.lp64 (fn_return (decl f_acc_excl))) 4 = 4.
Proof.
  assert (Hr : in_range
                 (repr Hdf5Lib.lp64 (native_type (fn_macro (decl f_acc_excl)))) 4).
  { apply in_rangeb_spec. vm_compute. reflexivity. }
  split; [exact Hr|].
  exact (proj2 (proj2 (return_type_matches_constant f_acc_excl))
           Hdf5Lib.lp64 4 Hr).
Defined.

(** C6, as stated, fails: no name of the header begins with [get_]; the
    name of the read-only flag accessor, for one, does not have the form
    get_<category>_<constant>. *)
Lemma f_acc_rdonly_name_not_get_convention :
  ~ follows_get_convention (fn_name (decl f_acc_rdonly)).
Proof.
  intros (cat & const & Hname). simpl in Hname. discriminate Hname.
Qed.

(** C6, amended. Every accessor is named
    hdf5_get_<category>_<constant>: the library prefix [hdf5_], then
    [get_], the tag of the accessor's group, an underscore and a non-empty
    constant name; tag and constant together are the end of the wrapped
    macro's identifier, in lower case. *)
Theorem accessor_name_convention (a : accessor) :
  exists const : string,
    const <> ""%string /\
    fn_name (decl a) =
      ("hdf5_" ++ "get_" ++ category_tag (fn_category (decl a)) ++ "_"
       ++ const)%string /\
    exists pre : string,
      lower (macro_name (fn_macro (decl a))) =
      (pre ++ category_tag (fn_category (decl a)) ++ "_" ++ const)%string.
Proof.
  set (n := String.length
              ("hdf5_get_" ++ category_tag (fn_category (decl a)) ++ "_")).
  exists (substring n (String.length (fn_name (decl a)) - n)
            (fn_name (decl a))).
  subst n.
  destruct a; vm_compute;
    (split; [discriminate|]); (split; [reflexivity|]);
    first [ exists "h5"%string; reflexivity
          | exists "h5t_"%string; reflexivity ].
Qed.

(** C7. The header consists of twenty-one accessors, which is within five
    of the spec's round figure of 25, and they fall into the six listed
    categories and no other: four file-access flags, three dataspace
    classes, one default property list, one selection marker, eleven native
    numeric type identifiers (signed and unsigned 8, 16, 32 and 64-bit
    integers, float, double and char), and one C-string type. *)
Theorem accessor_census :
  List.length all_accessors = 21%nat /\
  (25 - 5 <= List.length all_accessors <= 25 + 5)%nat /\
  List.length shim_h = List.length all_accessors /\
  map fn_macro (map decl (in_category File_access_flags)) =
    [H5F_ACC_RDONLY; H5F_ACC_RDWR; H5F_ACC_TRUNC; H5F_ACC_EXCL] /\
  map fn_macro (map decl (in_category Dataspace_types)) =
    [H5S_SCALAR; H5S_SIMPLE; H5S_NULL] /\
  map fn_macro (map decl (in_category Property_list_identifiers)) =
    [H5P_DEFAULT] /\
  map fn_macro (map decl (in_category Dataspace_selection)) = [H5S_ALL] /\
  map fn_macro (map decl (in_category Native_type_identifiers)) =
    [H5T_NATIVE_INT8; H5T_NATIVE_INT16; H5T_NATIVE_INT32; H5T_NATIVE_INT64;
     H5T_NATIVE_UINT8; H5T_NATIVE_UINT16; H5T_NATIVE_UINT32;
     H5T_NATIVE_UINT64;
     H5T_NATIVE_FLOAT; H5T_NATIVE_DOUBLE; H5T_NATIVE_CHAR] /\
  map fn_macro (map decl (in_category String_type_helper)) = [H5T_C_S1] /\
  (forall a : accessor, In a all_accessors) /\
  NoDup all_accessors.
Proof.
  repeat (split; [first [reflexivity | simpl; lia]|]).
  split; [exact all_accessors_complete | exact all_accessors_NoDup].
Qed.

(** C8. The accessors and the wrapped constants correspond one to one.
    A call of an accessor passes through its one macro: it returns that
    macro's value and state, and depends on [<hdf5.h>] through that macro
    alone; two accessors that wrap the same macro are the same accessor,
    and no macro or function name occurs twice in the header. *)
Theorem accessor_macro_one_to_one {G : Type} (P : platform)
    (h h' : macro -> M G Z) (a b : accessor) (g : G) :
  call P h a g =
    (convert (repr P (fn_return (decl a))) (value_of (h (fn_macro (decl a)) g)),
     state_of (h (fn_macro (decl a)) g)) /\
  (h (fn_macro (decl a)) g = h' (fn_macro (decl a)) g ->
   call P h a g = call P h' a g) /\
  (fn_macro (decl a) = fn_macro (decl b) -> a = b) /\
  NoDup (map fn_macro shim_h) /\
  NoDup (map fn_name shim_h).
Proof.
  split; [rewrite call_decl; apply creturn_eq|].
  split.
  { intros Hsame. rewrite !call_decl, !creturn_eq, Hsame. reflexivity. }
  split.
  { intros Hab. destruct a; destruct b; first [reflexivity | discriminate Hab]. }
  split; unfold shim_h, all_accessors; simpl;
    repeat (constructor; [simpl; intuition discriminate|]); constructor.
Qed.

Lemma accessor_macro_one_to_one_witness :
  let h' := fun m : macro =>
              match m with
              | H5S_ALL => Hdf5Lib.expansion m
              | _ => ret 7
              end in
  Hdf5Lib.expansion (fn_macro (decl s_all)) Hdf5Lib.uninitialised =
    h' (fn_macro (decl s_all)) Hdf5Lib.uninitialised /\
  call Hdf5Lib.lp64 Hdf5Lib.expansion s_all Hdf5Lib.uninitialised =
    call Hdf5Lib.lp64 h' s_all Hdf5Lib.uninitialised /\
  fn_macro (decl s_all) = fn_macro (decl s_all) /\
  s_all = s_all.
Proof.
  intros h'.
  pose proof (accessor_macro_one_to_one Hdf5Lib.lp64 Hdf5Lib.expansion h'
                s_all s_all Hdf5Lib.uninitialised)
    as (_ & Hdep & Hinj & _).
  split; [reflexivity|].
  split; [apply Hdep; reflexivity|].
  split; [reflexivity | apply Hinj; reflexivity].
Defined.

(** C9, as stated, fails: an accessor whose macro contains runtime
    initialisation touches shared mutable state.  In the library instance,
    the first call of [hdf5_get_c_s1] writes the initialisation flag and
    the datatype globals. *)
Lemma c_s1_touches_shared_state :
  ~ touches_no_shared_state Hdf5Lib.lp64 Hdf5Lib.expansion c_s1.
Proof.
  intros Hnone. destruct (Hnone Hdf5Lib.uninitialised) as [Hstate _].
  apply (f_equal Hdf5Lib.H5_libinit_g) in Hstate.
  vm_compute in Hstate. discriminate Hstate.
Qed.

(** C9, amended. An accessor touches shared mutable state only by
    evaluating its wrapped macro: a call returns that macro's value and
    leaves that macro's state.  When the macro is a constant, the accessor
    neither writes the global state nor reads it, and a call of it may
    change places with any other computation of the process without
    changing what either returns or the state that results. *)
Theorem accessor_touches_state_through_macro {G : Type} (P : platform)
    (h : macro -> M G Z) (a : accessor) (c : Z) :
  (forall g,
     call P h a g =
       (convert (repr P (fn_return (decl a)))
          (value_of (h (fn_macro (decl a)) g)),
        state_of (h (fn_macro (decl a)) g))) /\
  ((forall g, h (fn_macro (decl a)) g = (c, g)) ->
   touches_no_shared_state P h a /\
   forall (B : Type) (k : M G B) (g : G),
     (v <- call P h a ;; x <- k ;; ret (v, x)) g =
     (x <- k ;; v <- call P h a ;; ret (v, x)) g).
Proof.
  split; [intros g; rewrite call_decl; apply creturn_eq|].
  intros Hc.
  assert (Hcall : forall g,
            call P h a g = (convert (repr P (fn_return (decl a))) c, g)).
  { intros g. rewrite call_decl, creturn_eq, Hc. reflexivity. }
  split.
  - intros g. split.
    + rewrite Hcall. reflexivity.
    + intros g'. rewrite !Hcall. reflexivity.
  - intros B k g. unfold bind, ret. rewrite Hcall.
    destruct (k g) as [x g1]. rewrite Hcall. reflexivity.
Qed.

Lemma accessor_touches_state_through_macro_witness :
  (forall g, Hdf5Lib.expansion (fn_macro (decl f_acc_trunc)) g = (2, g)) /\
  (v <- call Hdf5Lib.lp64 Hdf5Lib.expansion f_acc_trunc ;;
   x <- call Hdf5Lib.lp64 Hdf5Lib.expansion native_float ;; ret (v, x))
    Hdf5Lib.uninitialised =
  (x <- call Hdf5Lib.lp64 Hdf5Lib.expansion native_float ;;
   v <- call Hdf5Lib.lp64 Hdf5Lib.expansion f_acc_trunc ;; ret (v, x))
    Hdf5Lib.uninitialised.
Proof.
  assert (Hc : forall g,
            Hdf5Lib.expansion (fn_macro (decl f_acc_trunc)) g = (2, g)).
  { intros g. reflexivity. }
  split; [exact Hc|].
  exact (proj2 (proj2 (accessor_touches_state_through_macro Hdf5Lib.lp64
                         Hdf5Lib.expansion f_acc_trunc 2) Hc)
           Z (call Hdf5Lib.lp64 Hdf5Lib.expansion native_float)
           Hdf5Lib.uninitialised).
Defined.

(** C10. Every accessor terminates.  Its body is one [return] of one
    macro: a call evaluates that macro once, converts the value to the
    return type and returns it with the state the macro left, calling no
    other function of the header; so every call returns a result. *)
Theorem accessor_terminates {G : Type} (P : platform) (h : macro -> M G Z)
    (a : accessor) (g : G) :
  call P h a = creturn P (fn_return (decl a)) (h (fn_macro (decl a))) /\
  call P h a g =
    (convert (repr P (fn_return (decl a))) (value_of (h (fn_macro (decl a)) g)),
     state_of (h (fn_macro (decl a)) g)) /\
  exists (v : Z) (g' : G), call P h a g = (v, g').
Proof.
  split; [apply call_decl|].
  split; [rewrite call_decl; apply creturn_eq|].
  rewrite call_decl, creturn_eq. eexists; eexists; reflexivity.
Qed.

(** ** Further properties of the header *)

(** X1. The include guard makes repeated inclusion harmless: when
    [CHDF5_SHIM_H] is not defined beforehand and [<hdf5.h>] leaves defined
    names defined, including the header one or more times defines each of
    the twenty-one accessors exactly once, and the guard is defined
    afterwards. *)
Theorem include_guard_defines_once (hdf5_defines : list string -> list string)
    (n : nat) (defs : list string) :
  (forall d, defined CHDF5_SHIM_H d = true ->
             defined CHDF5_SHIM_H (hdf5_defines d) = true) ->
  defined CHDF5_SHIM_H defs = false ->
  fst (include_times hdf5_defines (S n) defs) = shim_h /\
  defined CHDF5_SHIM_H (snd (include_times hdf5_defines (S n) defs)) = true.
Proof.
  intros Hkeep Hfresh.
  assert (Hrest : forall k d, defined CHDF5_SHIM_H d = true ->
            include_times hdf5_defines k d = ([], d)).
  { induction k as [|k IH]; intros d Hd; simpl; [reflexivity|].
    unfold include_shim_h. rewrite Hd, (IH d Hd). reflexivity. }
  cbn [include_times]. unfold include_shim_h. rewrite Hfresh.
  assert (Hguard : defined CHDF5_SHIM_H
                     (hdf5_defines (CHDF5_SHIM_H :: defs)) = true).
  { apply Hkeep. reflexivity. }
  rewrite (Hrest n _ Hguard). cbn [fst snd]. rewrite app_nil_r.
  split; [reflexivity | exact Hguard].
Qed.

Lemma include_guard_defines_once_witness :
  fst (include_times (fun d => "H5_VERS_MAJOR"%string :: d) 3 ["NDEBUG"%string])
    = shim_h /\
  defined CHDF5_SHIM_H
    (snd (include_times (fun d => "H5_VERS_MAJOR"%string :: d) 3
            ["NDEBUG"%string])) = true.
Proof.
  apply (include_guard_defines_once
           (fun d => "H5_VERS_MAJOR"%string :: d) 2 ["NDEBUG"%string]).
  - intros d Hd. unfold defined in *. simpl. exact Hd.
  - reflexivity.
Defined.

(** X2. When [CHDF5_SHIM_H] is already defined before the header is read,
    the header defines no accessor and changes no definition, however often
    it is included. *)
Theorem include_guard_predefined (hdf5_defines : list string -> list string)
    (n : nat) (defs : list string) :
  defined CHDF5_SHIM_H defs = true ->
  include_times hdf5_defines n defs = ([], defs).
Proof.
  intros Hd. induction n as [|n IH]; simpl; [reflexivity|].
  unfold include_shim_h. rewrite Hd, IH. reflexivity.
Qed.

Lemma include_guard_predefined_witness :
  include_times (fun d => d) 2 ["CHDF5_SHIM_H"%string] =
  ([], ["CHDF5_SHIM_H"%string]).
Proof.
  apply (include_guard_predefined (fun d => d) 2 ["CHDF5_SHIM_H"%string]).
  reflexivity.
Defined.

(** X3. Whatever the macro yields, the value an accessor returns differs
    from it by a multiple of [2 ^ width] of the return type, and it is the
    macro's value itself exactly when that value is representable in the
    return type. *)
Theorem accessor_exact_iff_representable {G : Type} (P : platform)
    (h : macro -> M G Z) (a : accessor) (g : G) :
  (exists k : Z,
     value_of (call P h a g) =
     value_of (h (fn_macro (decl a)) g) +
     k * modulus (repr P (fn_return (decl a)))) /\
  (value_of (call P h a g) = value_of (h (fn_macro (decl a)) g) <->
   in_range (repr P (fn_return (decl a))) (value_of (h (fn_macro (decl a)) g))).
Proof.
  rewrite call_value.
  set (r := repr P (fn_return (decl a))).
  set (v := value_of (h (fn_macro (decl a)) g)).
  split.
  - exists (- ((v - min_value r) / modulus r)).
    unfold convert.
    pose proof (Z.div_mod (v - min_value r) (modulus r)) as Hdm.
    pose proof (modulus_pos r). specialize (Hdm ltac:(lia)). nia.
  - split.
    + intros Heq. rewrite <- Heq. apply convert_in_range.
    + apply convert_id.
Qed.

(** X4. A sequence of accessor calls acts on the process like the sequence
    of the wrapped macros: it leaves the same global state, and returns the
    macros' values, each converted to the return type of its accessor. *)
Theorem calls_are_macros {G : Type} (P : platform) (h : macro -> M G Z)
    (l : list accessor) (g : G) :
  state_of (calls P h l g) = state_of (macros h l g) /\
  value_of (calls P h l g) = returned P l (value_of (macros h l g)).
Proof.
  revert g. induction l as [|a rest IH]; intros g; [split; reflexivity|].
  simpl. unfold bind.
  rewrite call_decl, creturn_eq.
  destruct (h (fn_macro (decl a)) g) as [v g1]. simpl.
  specialize (IH g1).
  destruct (calls P h rest g1) as [vs g2].
  destruct (macros h rest g1) as [ws g3].
  unfold state_of, value_of, ret in *. simpl in *.
  destruct IH as [Hs Hv]. subst. split; reflexivity.
Qed.
